(** * Logging to a Visdom server: a model of [trainer/plugins/visdom_logger.py]

    The plugin classes of the module are embedded as records with explicit
    state passing.  Every method runs in a small state-and-exception monad
    whose state pairs the receiver ([self]) with the Visdom connection
    handle; the handle records, in order, every call the plugin sends to the
    server, so that "which remote calls were issued" is a property of the
    final state. *)

From stdpp Require Import gmap strings list fin_maps.
From Stdlib Require Import ZArith.

Open Scope string_scope.

(** ** Python values held in statistics and option mappings *)

(** Leaves are opaque payloads for the plugin: numbers, strings and [None].
    A [VDict] is a Python [dict] keyed by strings. *)
#[warnings="-register-all"]
Inductive value : Type :=
  | VNone
  | VNum (z : Z)
  | VStr (s : string)
  | VDict (m : gmap string value).

(** ** Exceptions *)

(** The three [ValueError]s the module raises, told apart by their message,
    and the one Python raises itself when a tuple assignment has the wrong
    number of values. *)
Inductive value_error : Type :=
  | PlotTypeNotFound (plot_type : string)
  | MustPassXY
  | UpdateTypeNotFound (update_type : string)
  | UnpackMismatch.

Inductive exn : Type :=
  | KeyError (key : string)
  | TypeError
  | ValueError (why : value_error)
  | AttributeError (name : string)
  | NotImplementedError.

Inductive result (A : Type) : Type :=
  | Ok (a : A)
  | Raise (e : exn).
Arguments Ok {A} a.
Arguments Raise {A} e.

(** ** The Visdom client *)

(** The two chart methods [VisdomPlotLogger] chooses between. *)
Inductive chart_op : Type :=
  | scatter
  | line.

(** The array [np.array(rows)] that a chart method is handed as [X].  numpy
    brings the elements of an array to one common type (a number next to a
    string becomes a string, say); that coercion is not modelled, and
    [np_array rows] stands for the array numpy builds from [rows], whatever
    it holds.  The arrays handed to [updateTrace] have one element each,
    which they hold as it is; they are written as one-element lists. *)
Inductive ndarray : Type :=
  | np_array (rows : list (list value)).

(** A call sent through the connection handle.
    - [VizChart op X win env opts] is [viz.scatter] or [viz.line] called with
      the keyword arguments [X], [win], [env], [opts] and no other;
    - [VizUpdateTrace X Y win env opts] is [viz.updateTrace];
    - [VizText text win env opts] is [viz.text] with one positional argument;
    - [VizMethod name args kwargs win env opts] is [getattr(viz, name)]
      called with positional [args] and the keywords;
    - [VizSave args] is [viz.save] with its positional arguments
      ([viz.save()] is [VizSave []], [viz.save(envs)] is [VizSave [envs]]). *)
Inductive call : Type :=
  | VizChart (op : chart_op) (X : ndarray)
      (win env : option string) (opts : gmap string value)
  | VizUpdateTrace (X Y : list value)
      (win env : option string) (opts : gmap string value)
  | VizText (text : list string)
      (win env : option string) (opts : gmap string value)
  | VizMethod (name : string) (args : list value) (kwargs : list (string * value))
      (win env : option string) (opts : gmap string value)
  | VizSave (args : list (option (list string))).

(** The Visdom server as the plugins reach it through [visdom.Visdom()]
    handles.  The server is a black box: [methods] are the names of the
    plotting methods the client offers, [reply] is the window identifier the
    server answers to a call, given the calls it has received so far, and
    [sent] is the log of the calls issued to it, oldest first.  The chart
    methods of the client write their defaults into the options dictionary
    they are handed, which is the caller's own: [opts_left c] is that
    dictionary as the chart call [c] leaves it. *)
Record Visdom : Type := {
  methods : list string;
  reply : list call -> call -> string;
  opts_left : call -> gmap string value;
  sent : list call
}.

(** ** State and exceptions *)

(** A method body: from the receiver and the connection to a result and their
    new values.  The state survives a raised exception, as attribute updates
    and issued calls do in Python. *)
Definition M (L A : Type) : Type := L * Visdom -> result A * (L * Visdom).

#[global] Instance M_ret {L} : MRet (M L) := fun A a s => (Ok a, s).

#[global] Instance M_bind {L} : MBind (M L) := fun A B f m s =>
  match m s with
  | (Ok a, s') => f a s'
  | (Raise e, s') => (Raise e, s')
  end.

Definition raise {L A} (e : exn) : M L A := fun s => (Raise e, s).

Definition get_self {L} : M L L := fun s => (Ok (fst s), s).

Definition set_self {L} (l : L) : M L unit := fun s => (Ok tt, (l, snd s)).

Definition get_viz {L} : M L Visdom := fun s => (Ok (snd s), s).

(** The server after the calls [cs] were issued to it. *)
Definition after (v : Visdom) (cs : list call) : Visdom :=
  {| methods := methods v; reply := reply v; opts_left := opts_left v;
     sent := sent v ++ cs |}.

(** What the signatures of the client's methods make of the calls of this
    module.  [viz.save] takes exactly one argument, the environments;
    [viz.line] requires [Y], which a [VizChart] call does not pass, while
    [viz.scatter] requires [X] only; the calls of [updateTrace] and [text]
    pass what these require.  Nothing is known of the signatures of the
    methods the generic logger looks up by name. *)
Definition client_accepts (c : call) : bool :=
  match c with
  | VizChart scatter _ _ _ _ => true
  | VizChart line _ _ _ _ => false
  | VizSave args => bool_decide (length args = 1)
  | _ => true
  end.

(** Issue [c] through the handle and return the server's answer.  Python
    raises [TypeError] for a call that does not fit the signature of the
    method, and nothing is sent. *)
Definition viz_call {L} (c : call) : M L string := fun s =>
  let v := snd s in
  if client_accepts c then (Ok (reply v (sent v) c), (fst s, after v [c]))
  else (Raise TypeError, s).

(** Whether a call is a request to persist the session, however it was
    reached. *)
Definition is_save (c : call) : bool :=
  match c with
  | VizSave _ => true
  | VizMethod name _ _ _ _ _ => String.eqb name "save"
  | _ => false
  end.

Definition count_saves (cs : list call) : nat := length (List.filter is_save cs).

(** Whether a call creates a plot through one of the chart methods. *)
Definition is_create (c : call) : bool :=
  match c with
  | VizChart _ _ _ _ _ => true
  | _ => false
  end.

(** ** Subscripting *)

(** [stat[f]]: on a dictionary, a lookup raising [KeyError] for a key it
    does not hold; the leaves modelled here do not support subscripting by
    a string, which is a [TypeError]. *)
Definition getitem (stat : value) (f : string) : result value :=
  match stat with
  | VDict m =>
      match m !! f with
      | Some v => Ok v
      | None => Raise (KeyError f)
      end
  | _ => Raise TypeError
  end.

(** The inner loop of [_log_all]:
    [for f in field: parent, stat = stat, stat[f]], returning the final
    [parent] and [stat]. *)
Fixpoint walk (parent : option value) (stat : value) (field : list string)
  : result (option value * value) :=
  match field with
  | [] => Ok (parent, stat)
  | f :: rest =>
      match getitem stat f with
      | Ok v => walk (Some stat) v rest
      | Raise e => Raise e
      end
  end.

(** The outer loop of [_log_all]: for each field path, walk it from the
    statistics mapping and append the value reached to [results]. *)
Fixpoint gather (stats : value) (fields : list (list string)) (results : list value)
  : result (list value) :=
  match fields with
  | [] => Ok results
  | field :: rest =>
      match walk None stats field with
      | Ok (_, stat) => gather stats rest (results ++ [stat])
      | Raise e => Raise e
      end
  end.

(** Run a computation that touches neither the receiver nor the server. *)
Definition lift {L A} (r : result A) : M L A := fun s => (r, s).

(** Keyword arguments in call order. *)
Abbreviation kwargs := (list (string * value)).

(** The keywords [_viz_logger] passes of its own. *)
Definition own_keywords : list string := ["win"; "env"; "opts"].

(** Whether one of the caller's keywords bears the name of one of them. *)
Definition collides (kw : kwargs) : bool :=
  existsb (fun p => bool_decide (fst p ∈ own_keywords)) kw.

(** ** [BaseVisdomLogger] *)

Module BaseVisdomLogger.

(** The attributes every Visdom logger holds.  [fields] and [interval] are
    set by the parent class [Logger]; [win], [env] and [opts] by
    [BaseVisdomLogger.__init__]. *)
Record t : Type := {
  fields : list (list string);
  interval : option (list (Z * string));
  win : option string;
  env : option string;
  opts : gmap string value
}.

(** [self.win = w]. *)
Definition set_win (w : option string) (b : t) : t :=
  {| fields := fields b; interval := interval b; win := w;
     env := env b; opts := opts b |}.

(** [self.opts] after the client wrote into the dictionary. *)
Definition set_opts (o : gmap string value) (b : t) : t :=
  {| fields := fields b; interval := interval b; win := win b;
     env := env b; opts := o |}.

(** Modelled from the spec: [Logger.__init__] lives in
    [trainer/plugins/logger.py], which is not among the sources; by the
    spec a logger is "constructed with field paths, a firing interval", so
    the parent constructor keeps the two as it is given them. *)
Definition Logger__init__ (fields : list (list string))
    (interval : option (list (Z * string)))
  : list (list string) * option (list (Z * string)) :=
  (fields, interval).

Definition __init__ (fields : list (list string))
    (interval : option (list (Z * string)))
    (win env : option string) (opts : gmap string value) : M unit t :=
  let '(fs, iv) := Logger__init__ fields interval in
  mret {| fields := fs; interval := iv; win := win; env := env; opts := opts |}.

End BaseVisdomLogger.

(** A class deriving from [BaseVisdomLogger]: its instances carry the base
    attributes, which methods of the base class read and assign. *)
Class VisdomObject (L : Type) : Type := {
  base : L -> BaseVisdomLogger.t;
  with_base : L -> BaseVisdomLogger.t -> L
}.

#[global] Instance BaseVisdomLogger_object : VisdomObject BaseVisdomLogger.t := {
  base := fun l => l;
  with_base := fun _ b => b
}.

Section BaseMethods.
Context {L : Type} `{VisdomObject L}.


(** [_viz_prototype(vis_fn)]: the closure [_viz_logger], which calls
    [vis_fn] with the stored window, environment and options and assigns
    the answer to [self.win].  A keyword of the caller that bears one of
    these three names is given twice in the call: Python raises [TypeError]
    and [vis_fn] is not entered. *)
Definition _viz_prototype {A : Type}
    (vis_fn : A -> kwargs -> option string -> option string ->
              gmap string value -> call)
    (args : A) (kw : kwargs) : M L unit :=
  self ← get_self;
  let b := base self in
  if collides kw then raise TypeError
  else
    w ← viz_call (vis_fn args kw (BaseVisdomLogger.win b)
                    (BaseVisdomLogger.env b) (BaseVisdomLogger.opts b));
    self ← get_self;
    set_self (with_base self (BaseVisdomLogger.set_win (Some w) (base self))).

(** [BaseVisdomLogger._log_all].  [log] is the receiver's own [log] method
    and [stats] is [self.trainer.stats] when the hook fires; the other
    arguments are accepted and unused. *)
Definition BaseVisdomLogger_log_all (log : list value -> kwargs -> M L unit)
    (stats : value) (log_fields : string) (prefix suffix : option string)
    (require_dict : bool) : M L unit :=
  self ← get_self;
  results ← lift (gather stats (BaseVisdomLogger.fields (base self)) []);
  log results [].

(** [BaseVisdomLogger.epoch].  [super_epoch] is [Logger.epoch], the hook of
    the parent class. *)
Definition BaseVisdomLogger_epoch (super_epoch : Z -> M L unit) (epoch_idx : Z)
  : M L unit :=
  super_epoch epoch_idx;;
  _ ← viz_call (VizSave []);
  mret tt.

(** Modelled from the spec: [Logger.epoch] lives in
    [trainer/plugins/logger.py], which is not among the sources; by the
    spec the per-hook entry point "resolves all configured field paths via
    the stat accessor" and "invokes the abstract log operation with the
    resolved values", which is one call of the receiver's [_log_all].  The
    literals the hook hands to [_log_all] are not specified and are left
    to the caller of this definition. *)
Definition Logger_epoch
    (_log_all : string -> option string -> option string -> bool -> M L unit)
    (log_fields : string) (prefix suffix : option string) (require_dict : bool)
    (epoch_idx : Z) : M L unit :=
  _log_all log_fields prefix suffix require_dict.

End BaseMethods.

(** ** [VisdomSaver] *)

Module VisdomSaver.

(** [hooks] are the attribute names the constructor bound to [self.save]
    with [setattr], in the order it bound them.  The record keeps them apart
    from the attributes the constructor assigns: it is the saver of an
    interval whose hook names are names of trainer events ([event_name]
    below), and does not show a [setattr] that replaces [envs], [viz] or
    another attribute of the saver. *)
Record t : Type := {
  trigger_interval : list (Z * string);
  envs : option (list string);
  hooks : list string
}.

(** The names a saver answers to before any hook is bound: the attributes
    set by the constructors and by [register], and the methods of the
    class. *)
Definition saver_attributes : list string :=
  ["trigger_interval"; "envs"; "viz"; "trainer"; "register"; "save"].

(** A name of a trainer event, as [epoch] or [iteration]: none of the
    saver's own names, nor one of Python's names for the attributes every
    object has, which start with an underscore. *)
Definition event_name (name : string) : bool :=
  negb (bool_decide (name ∈ saver_attributes)) && negb (String.prefix "_" name).

(** [setattr(self, name, self.save)], for the name of a trainer event. *)
Definition bind_save (name : string) (self : t) : t :=
  {| trigger_interval := trigger_interval self; envs := envs self;
     hooks := hooks self ++ [name] |}.

(** Modelled from the spec: [Plugin.__init__] lives in
    [trainer/plugins/plugin.py], which is not among the sources; by the spec
    a saver is "constructed with an optional list of named environments to
    persist and a firing interval", so the parent constructor keeps the
    interval it is given. *)
Definition Plugin__init__ (interval : list (Z * string)) : list (Z * string) :=
  interval.

(** The constructor.  Opening the saver's own handle sends nothing; the loop
    binds every name of [interval], in order. *)
Definition __init__ (envs : option (list string)) (interval : list (Z * string))
  : M unit t :=
  let self := {| trigger_interval := Plugin__init__ interval; envs := envs;
                 hooks := [] |} in
  mret (foldl (fun self p => bind_save (snd p) self) self interval).

Definition save (args : list value) (kw : kwargs) : M t unit :=
  self ← get_self;
  _ ← viz_call (VizSave [envs self]);
  mret tt.

(** The trainer firing the event [name] on the saver: [getattr(self, name)]
    called with the event's arguments.  [name] is the name of a trainer
    event ([event_name]), which the class defines no attribute for: it is an
    attribute of the saver when the constructor bound it, and looking it up
    raises [AttributeError] otherwise. *)
Definition fire (name : string) (args : list value) : M t unit :=
  self ← get_self;
  if bool_decide (name ∈ hooks self) then save args []
  else raise (AttributeError name).

End VisdomSaver.

(** ** [VisdomLogger] *)

Module VisdomLogger.

(** [chart], the bound method [getattr(self.viz, plot_type)], is
    represented by its name. *)
Record t : Type := {
  logger : BaseVisdomLogger.t;
  plot_type : string;
  chart : string
}.

#[global] Instance object : VisdomObject t := {
  base := logger;
  with_base := fun l b =>
    {| logger := b; plot_type := plot_type l; chart := chart l |}
}.

(** The constructor; [viz] is the shared handle, on which [getattr] looks
    the method up. *)
Definition __init__ (plot_type : string) (fields : list (list string))
    (interval : option (list (Z * string))) (win env : option string)
    (opts : gmap string value) : M unit t :=
  b ← BaseVisdomLogger.__init__ fields interval win env opts;
  viz ← get_viz;
  if bool_decide (plot_type ∈ methods viz) then
    mret {| logger := b; plot_type := plot_type; chart := plot_type |}
  else raise (AttributeError plot_type).

(** [self.viz_logger], set to [self._viz_prototype(self.chart)]. *)
Definition viz_logger (args : list value) (kw : kwargs) : M t unit :=
  self ← get_self;
  _viz_prototype (VizMethod (chart self)) args kw.

Definition log (args : list value) (kw : kwargs) : M t unit :=
  viz_logger args kw.

Definition _log_all := BaseVisdomLogger_log_all log.

End VisdomLogger.

(** ** [VisdomPlotLogger] *)

Module VisdomPlotLogger.

Record t : Type := {
  logger : BaseVisdomLogger.t;
  chart : chart_op
}.

#[global] Instance object : VisdomObject t := {
  base := logger;
  with_base := fun l b => {| logger := b; chart := chart l |}
}.

Definition valid_plot_types : gmap string chart_op :=
  {[ "scatter" := scatter; "line" := line ]}.

Definition __init__ (plot_type : string) (fields : list (list string))
    (interval : option (list (Z * string))) (win env : option string)
    (opts : gmap string value) : M unit t :=
  b ← BaseVisdomLogger.__init__ fields interval win env opts;
  match BaseVisdomLogger.opts b !! "plot_type" with
  | Some _ =>
      match valid_plot_types !! plot_type with
      | None => raise (ValueError (PlotTypeNotFound plot_type))
      | Some op => mret {| logger := b; chart := op |}
      end
  | None => mret {| logger := b; chart := scatter |}
  end.

(** [log] with positional [args] and keywords [kw], which it ignores.  With
    a stored window the two values are sent as one-element arrays.  Without
    one, the chart method is called with [X], the array built from the
    single row [args], and no [Y]; the method writes its defaults into
    [self.opts], the dictionary it is handed, before the answer is assigned
    to [self.win].  The tuple assignment [x, y = args] is reached only with
    two values. *)
Definition log (args : list value) (kw : kwargs) : M t unit :=
  self ← get_self;
  let b := base self in
  match BaseVisdomLogger.win b with
  | Some w =>
      if bool_decide (length args ≠ 2) then raise (ValueError MustPassXY)
      else
        match args with
        | [x; y] =>
            _ ← viz_call (VizUpdateTrace [x] [y] (Some w)
                            (BaseVisdomLogger.env b) (BaseVisdomLogger.opts b));
            mret tt
        | _ => raise (ValueError UnpackMismatch)
        end
  | None =>
      let create := VizChart (chart self) (np_array [args]) None
                      (BaseVisdomLogger.env b) (BaseVisdomLogger.opts b) in
      w ← viz_call create;
      viz ← get_viz;
      self ← get_self;
      set_self (with_base self
                  (BaseVisdomLogger.set_win (Some w)
                     (BaseVisdomLogger.set_opts (opts_left viz create) (base self))))
  end.

Definition _log_all := BaseVisdomLogger_log_all log.

End VisdomPlotLogger.

(** ** [VisdomTextLogger] *)

Module VisdomTextLogger.

Record t : Type := {
  logger : BaseVisdomLogger.t;
  text : string;
  update_type : string
}.

#[global] Instance object : VisdomObject t := {
  base := logger;
  with_base := fun l b =>
    {| logger := b; text := text l; update_type := update_type l |}
}.

(** [self.text = s]. *)
Definition set_text (s : string) (l : t) : t :=
  {| logger := logger l; text := s; update_type := update_type l |}.

Definition valid_update_types : list string := ["REPLACE"; "APPEND"].

(** The constructor.  [self.text] is assigned before [update_type] is
    checked; on a failure the instance is discarded with the exception. *)
Definition __init__ (fields : list (list string))
    (interval : option (list (Z * string))) (win env : option string)
    (opts : gmap string value) (update_type : string) : M unit t :=
  b ← BaseVisdomLogger.__init__ fields interval win env opts;
  if bool_decide (update_type ∉ valid_update_types) then
    raise (ValueError (UpdateTypeNotFound update_type))
  else mret {| logger := b; text := ""; update_type := update_type |}.

(** [self.viz_logger], set to [self._viz_prototype(self.viz.text)]. *)
Definition viz_logger (text : list string) : M t unit :=
  _viz_prototype (fun text (_ : kwargs) => VizText text) text [].

(** [log] for a string [msg]; further positionals and keywords are
    ignored.  A string is true when it is not empty, and
    ["<br>".join([a, b])] is [a], then ["<br>"], then [b]. *)
Definition log (msg : string) (args : list value) (kw : kwargs) : M t unit :=
  let text' := msg in
  self ← get_self;
  (if String.eqb (update_type self) "APPEND" && negb (String.eqb (text self) "")
   then set_self (set_text (String.concat "<br>" [text self; text']) self)
   else set_self (set_text text' self));;
  self ← get_self;
  viz_logger [text self].

Section LogAll.
(** Methods of the parent class [Logger], which is not among the
    sources, taken as they are called: [_gather_outputs] returns a name
    and a list of formatted outputs, [_align_output] pads the list it is
    given in place (here: returns it), [_join_results] makes one string
    of the named outputs. *)
Variable _gather_outputs :
  list string -> string -> option value -> value -> bool ->
  M t (string * list string).
Variable _align_output : nat -> list string -> M t (list string).
Variable _join_results : list (string * list string) -> M t string.

(** The loop of [_log_all] over [enumerate(self.fields)], from index
    [field_idx] on. *)
Fixpoint collect (stats : value) (log_fields : string) (require_dict : bool)
    (field_idx : nat) (fields : list (list string))
    (results : list (string * list string))
  : M t (list (string * list string)) :=
  match fields with
  | [] => mret results
  | field :: rest =>
      '(parent, stat) ← lift (walk None stats field);
      '(name, output) ← _gather_outputs field log_fields parent stat require_dict;
      match output with
      | [] => collect stats log_fields require_dict (S field_idx) rest results
      | _ =>
          output ← _align_output field_idx output;
          collect stats log_fields require_dict (S field_idx) rest
            (results ++ [(name, output)])
      end
  end.

Definition _log_all (stats : value) (log_fields : string)
    (prefix suffix : option string) (require_dict : bool) : M t unit :=
  self ← get_self;
  results ← collect stats log_fields require_dict 0
              (BaseVisdomLogger.fields (base self)) [];
  match results with
  | [] => mret tt
  | _ =>
      output ← _join_results results;
      match prefix with Some p => log p [] [] | None => mret tt end;;
      log output [] [];;
      match suffix with Some s => log s [] [] | None => mret tt end
  end.
End LogAll.

End VisdomTextLogger.

(** ** Words of the specification *)

(** [stored_at stats path v]: every key of [path] is present, one mapping
    inside the other, and [v] is the value stored at the end of [path]. *)
Inductive stored_at : value -> list string -> value -> Prop :=
  | stored_here (v : value) : stored_at v [] v
  | stored_below (m : gmap string value) (k : string) (path : list string)
      (child v : value) :
      m !! k = Some child ->
      stored_at child path v ->
      stored_at (VDict m) (k :: path) v.

(** [absent_key stats path k]: following [path], a mapping is reached that
    does not hold the next key, [k]. *)
Inductive absent_key : value -> list string -> string -> Prop :=
  | absent_here (m : gmap string value) (k : string) (path : list string) :
      m !! k = None ->
      absent_key (VDict m) (k :: path) k
  | absent_below (m : gmap string value) (k k' : string) (path : list string)
      (child : value) :
      m !! k = Some child ->
      absent_key child path k' ->
      absent_key (VDict m) (k :: path) k'.

(** [below_leaf stats path]: following [path], a value that is not a mapping
    is reached while keys of [path] are still to be looked up. *)
Inductive below_leaf : value -> list string -> Prop :=
  | below_here (leaf : value) (k : string) (path : list string) :
      (forall m : gmap string value, leaf ≠ VDict m) ->
      below_leaf leaf (k :: path)
  | below_deeper (m : gmap string value) (k : string) (path : list string)
      (child : value) :
      m !! k = Some child ->
      below_leaf child path ->
      below_leaf (VDict m) (k :: path).

(** A caller making the [log] calls [calls] one after the other on one plot
    logger, catching what a call raises and going on with the next. *)
Fixpoint log_each (calls : list (list value * kwargs))
    (s : VisdomPlotLogger.t * Visdom) : VisdomPlotLogger.t * Visdom :=
  match calls with
  | [] => s
  | (args, kw) :: rest => log_each rest (snd (VisdomPlotLogger.log args kw s))
  end.

(** The append call a [log] call with positional values [args] is to issue
    on window [w]: one for exactly two values, none otherwise. *)
Definition appended (w : string) (env : option string) (opts : gmap string value)
    (args : list value) : list call :=
  match args with
  | [x; y] => [VizUpdateTrace [x] [y] (Some w) env opts]
  | _ => []
  end.

(** The outcome of [log "a"] followed by [log "b"] on a text logger, and the
    text it then holds. *)
Definition text_after_a_b (l : VisdomTextLogger.t) (v : Visdom)
  : result unit * string :=
  let r := (VisdomTextLogger.log "a" [] [];; VisdomTextLogger.log "b" [] []) (l, v) in
  (fst r, VisdomTextLogger.text (fst (snd r))).

(** A caller logging the messages [msgs] one after the other on one text
    logger. *)
Fixpoint text_log_each (msgs : list string) : M VisdomTextLogger.t unit :=
  match msgs with
  | [] => mret tt
  | msg :: rest => VisdomTextLogger.log msg [] [];; text_log_each rest
  end.

(** The text a call hands to [viz.text], when it is such a call. *)
Definition sent_text (c : call) : option (list string) :=
  match c with
  | VizText text _ _ _ => Some text
  | _ => None
  end.

(** ** Samples used to exercise the statements *)

(** A server that answers ["window_0"] to the first call it receives and
    ["window_n"] to the later ones. *)
Definition sample_viz : Visdom :=
  {| methods := ["image"; "histogram"; "text"; "scatter"; "line"];
     reply := fun received _ =>
       if bool_decide (length received = 0) then "window_0" else "window_n";
     opts_left := fun c =>
       match c with
       | VizChart _ _ _ _ opts => <[ "markersize" := VNum 10 ]> opts
       | VizUpdateTrace _ _ _ _ opts | VizText _ _ _ opts
       | VizMethod _ _ _ _ _ opts => opts
       | VizSave _ => ∅
       end;
     sent := [] |}.

Definition sample_base (w : option string) : BaseVisdomLogger.t :=
  {| BaseVisdomLogger.fields := [["progress"; "percent"]];
     BaseVisdomLogger.interval := Some [(1%Z, "epoch")];
     BaseVisdomLogger.win := w;
     BaseVisdomLogger.env := Some "main";
     BaseVisdomLogger.opts := {[ "title" := VStr "loss" ]} |}.

Definition sample_plot (w : option string) : VisdomPlotLogger.t :=
  {| VisdomPlotLogger.logger := sample_base w; VisdomPlotLogger.chart := line |}.

Definition sample_stats : value :=
  VDict {[ "progress" := VDict {[ "percent" := VNum 42 ]} ]}.

(** The logger [VisdomPlotLogger("scatter", ...)] of two fields, as its
    constructor returns it for [w = None]. *)
Definition sample_scatter (w : option string) : VisdomPlotLogger.t :=
  {| VisdomPlotLogger.logger :=
       {| BaseVisdomLogger.fields := [["progress"; "samples_used"];
                                      ["progress"; "percent"]];
          BaseVisdomLogger.interval := Some [(2%Z, "iteration")];
          BaseVisdomLogger.win := w;
          BaseVisdomLogger.env := Some "main";
          BaseVisdomLogger.opts := {[ "title" := VStr "progress" ]} |};
     VisdomPlotLogger.chart := scatter |}.

Definition sample_progress : value :=
  VDict {[ "progress" := VDict {[ "samples_used" := VNum 64; "percent" := VNum 42 ]} ]}.

(** * Properties *)

(** ** Calls of the plot logger *)

Section PlotLog.
Import VisdomPlotLogger.


(** With a stored window, [log] depends on the number of values only. *)
Lemma log_with_window (l : t) (v : Visdom) (w : string) (args : list value)
    (kw : kwargs) :
  BaseVisdomLogger.win (logger l) = Some w ->
  log args kw (l, v) =
    match args with
    | [x; y] =>
        (Ok tt,
         (l, after v [VizUpdateTrace [x] [y] (Some w)
                        (BaseVisdomLogger.env (logger l))
                        (BaseVisdomLogger.opts (logger l))]))
    | _ => (Raise (ValueError MustPassXY), (l, v))
    end.
Proof.
  intros Hwin. unfold log, mbind, M_bind, get_self, viz_call, raise. cbn.
  rewrite Hwin.
  destruct args as [|x [|y [|z rest]]]; reflexivity.
Qed.

Lemma after_after (v : Visdom) (cs ds : list call) :
  after (after v cs) ds = after v (cs ++ ds).
Proof. unfold after; cbn. by rewrite <- app_assoc. Qed.

Lemma after_nil (v : Visdom) : after v [] = v.
Proof. destruct v; unfold after; cbn. by rewrite app_nil_r. Qed.

(** A logger with a stored window keeps it through any run of calls, and
    the calls it issues are the appends of the two-value calls. *)
Lemma log_each_with_window (calls : list (list value * kwargs)) (l : t)
    (v : Visdom) (w : string) :
  BaseVisdomLogger.win (logger l) = Some w ->
  log_each calls (l, v) =
    (l, after v (flat_map (fun c => appended w (BaseVisdomLogger.env (logger l))
                                      (BaseVisdomLogger.opts (logger l)) (fst c))
                   calls)).
Proof.
  intros Hwin. revert v.
  induction calls as [|[args kw] rest IH]; intros v; cbn [log_each flat_map].
  - by rewrite after_nil.
  - rewrite (log_with_window l v w args kw Hwin).
    destruct args as [|x [|y [|z more]]]; cbn [snd fst appended];
      rewrite IH; try reflexivity.
    by rewrite after_after.
Qed.
End PlotLog.

Section PlotLogClaims.
Import VisdomPlotLogger.

Lemma appended_no_create (w : string) (env : option string)
    (opts : gmap string value) (calls : list (list value * kwargs)) :
  List.filter is_create (flat_map (fun c => appended w env opts (fst c)) calls) = [].
Proof.
  induction calls as [|[args kw] rest IH]; [reflexivity|].
  cbn [flat_map fst]. rewrite List.filter_app, IH, app_nil_r.
  destruct args as [|x [|y [|z more]]]; reflexivity.
Qed.




(** C3: with a stored window identifier, a [log] call whose number of
  positional values is not two raises the [ValueError] asking for x and y,
  with the logger and the server as they were: no call was issued. *)
Theorem plot_log_wrong_arity (l : t) (v : Visdom) (w : string)
    (args : list value) (kw : kwargs) :
  BaseVisdomLogger.win (logger l) = Some w ->
  length args ≠ 2 ->
  log args kw (l, v) = (Raise (ValueError MustPassXY), (l, v)).
Proof.
  intros Hwin Hlen. rewrite (log_with_window l v w args kw Hwin).
  destruct args as [|x [|y [|z more]]]; try reflexivity.
  by destruct Hlen.
Qed.

Lemma plot_log_wrong_arity_witness :
  BaseVisdomLogger.win (logger (sample_plot (Some "window_0"))) = Some "window_0" /\
  length [VNum 1; VNum 2; VNum 3] ≠ 2 /\
  log [VNum 1; VNum 2; VNum 3] [] (sample_plot (Some "window_0"), sample_viz) =
    (Raise (ValueError MustPassXY), (sample_plot (Some "window_0"), sample_viz)).
Proof.
  split; [reflexivity|]. split; [cbn; lia|].
  apply (plot_log_wrong_arity _ _ "window_0"); [reflexivity | cbn; lia].
Defined.

(** C10: with a stored window identifier, a [log] call with two values
  succeeds, issues the one append call, and leaves the logger as it was:
  window identifier, environment, options, fields and chart operation. *)
Theorem plot_log_update_keeps_logger (l : t) (v : Visdom) (w : string)
    (x y : value) (kw : kwargs) :
  BaseVisdomLogger.win (logger l) = Some w ->
  log [x; y] kw (l, v) =
    (Ok tt,
     (l, after v [VizUpdateTrace [x] [y] (Some w)
                    (BaseVisdomLogger.env (logger l))
                    (BaseVisdomLogger.opts (logger l))])).
Proof. intros Hwin. exact (log_with_window l v w [x; y] kw Hwin). Qed.

Lemma plot_log_update_keeps_logger_witness :
  BaseVisdomLogger.win (logger (sample_plot (Some "window_0"))) = Some "window_0" /\
  fst (snd (log [VNum 7; VNum 9] [] (sample_plot (Some "window_0"), sample_viz))) =
    sample_plot (Some "window_0").
Proof.
  split; [reflexivity|].
  rewrite (plot_log_update_keeps_logger (sample_plot (Some "window_0")) sample_viz
             "window_0" (VNum 7) (VNum 9) [] eq_refl).
  reflexivity.
Defined.
End PlotLogClaims.

(** ** Construction of the plot logger *)

Section PlotInit.
Import VisdomPlotLogger.

Lemma valid_plot_types_other (plot_type : string) :
  plot_type ≠ "scatter" -> plot_type ≠ "line" ->
  valid_plot_types !! plot_type = None.
Proof.
  intros Hs Hl. unfold valid_plot_types.
  rewrite lookup_insert_ne by congruence.
  by rewrite lookup_singleton_ne by congruence.
Qed.

(** What the constructor does once the base attributes are set. *)
Lemma init_unfold (plot_type : string) (fields : list (list string))
    (interval : option (list (Z * string))) (win env : option string)
    (opts : gmap string value) (v : Visdom) :
  __init__ plot_type fields interval win env opts (tt, v) =
    let b := {| BaseVisdomLogger.fields := fields;
                BaseVisdomLogger.interval := interval;
                BaseVisdomLogger.win := win;
                BaseVisdomLogger.env := env;
                BaseVisdomLogger.opts := opts |} in
    match opts !! "plot_type" with
    | Some _ =>
        match valid_plot_types !! plot_type with
        | None => (Raise (ValueError (PlotTypeNotFound plot_type)), (tt, v))
        | Some op => (Ok {| logger := b; chart := op |}, (tt, v))
        end
    | None => (Ok {| logger := b; chart := scatter |}, (tt, v))
    end.
Proof.
  unfold __init__, BaseVisdomLogger.__init__, mbind, M_bind, mret, M_ret, raise.
  cbn. destruct (opts !! "plot_type"); [|reflexivity].
  destruct (valid_plot_types !! plot_type); reflexivity.
Qed.

(** C1: when the options hold the key ['plot_type'], the constructor chooses
    the chart operation the requested kind names, [scatter] for ["scatter"]
    and [line] for ["line"], and raises the [ValueError] for an unsupported
    kind on any other name; when the options do not hold the key, the chart
    operation is [scatter] whatever kind was requested.  The server is not
    called. *)
Theorem plot_init_chart (plot_type : string) (fields : list (list string))
    (interval : option (list (Z * string))) (win env : option string)
    (opts : gmap string value) (v : Visdom) :
  let b := {| BaseVisdomLogger.fields := fields;
              BaseVisdomLogger.interval := interval;
              BaseVisdomLogger.win := win;
              BaseVisdomLogger.env := env;
              BaseVisdomLogger.opts := opts |} in
  let made := __init__ plot_type fields interval win env opts (tt, v) in
  (is_Some (opts !! "plot_type") ->
     (plot_type = "scatter" ->
        made = (Ok {| logger := b; chart := scatter |}, (tt, v))) /\
     (plot_type = "line" ->
        made = (Ok {| logger := b; chart := line |}, (tt, v))) /\
     (plot_type ≠ "scatter" -> plot_type ≠ "line" ->
        made = (Raise (ValueError (PlotTypeNotFound plot_type)), (tt, v)))) /\
  (opts !! "plot_type" = None ->
     made = (Ok {| logger := b; chart := scatter |}, (tt, v))).
Proof.
  intros b made. subst made. rewrite init_unfold. fold b. split.
  - intros [flag Hflag]. rewrite Hflag. repeat split.
    + by intros ->.
    + by intros ->.
    + intros Hs Hl. by rewrite valid_plot_types_other.
  - by intros ->.
Qed.

Lemma plot_init_chart_witness :
  is_Some (({[ "plot_type" := VStr "line" ]} : gmap string value) !! "plot_type") /\
  "bogus" ≠ "scatter" /\ "bogus" ≠ "line" /\
  __init__ "bogus" [["loss"]] None None None {[ "plot_type" := VStr "line" ]}
    (tt, sample_viz) =
    (Raise (ValueError (PlotTypeNotFound "bogus")), (tt, sample_viz)) /\
  __init__ "line" [["loss"]] None None None {[ "plot_type" := VStr "line" ]}
    (tt, sample_viz) =
    (Ok {| logger := {| BaseVisdomLogger.fields := [["loss"]];
                        BaseVisdomLogger.interval := None;
                        BaseVisdomLogger.win := None;
                        BaseVisdomLogger.env := None;
                        BaseVisdomLogger.opts := {[ "plot_type" := VStr "line" ]} |};
           chart := line |}, (tt, sample_viz)) /\
  __init__ "line" [["loss"]] None None None ∅ (tt, sample_viz) =
    (Ok {| logger := {| BaseVisdomLogger.fields := [["loss"]];
                        BaseVisdomLogger.interval := None;
                        BaseVisdomLogger.win := None;
                        BaseVisdomLogger.env := None;
                        BaseVisdomLogger.opts := ∅ |};
           chart := scatter |}, (tt, sample_viz)).
Proof.
  assert (Hflag : is_Some (({[ "plot_type" := VStr "line" ]} : gmap string value)
                             !! "plot_type")) by (eexists; reflexivity).
  split; [exact Hflag|]. split; [discriminate|]. split; [discriminate|].
  split; [|split].
  - apply (plot_init_chart "bogus" [["loss"]] None None None
             {[ "plot_type" := VStr "line" ]} sample_viz); [exact Hflag | discriminate..].
  - apply (plot_init_chart "line" [["loss"]] None None None
             {[ "plot_type" := VStr "line" ]} sample_viz); [exact Hflag | reflexivity].
  - apply (plot_init_chart "line" [["loss"]] None None None ∅ sample_viz).
    reflexivity.
Defined.

(** C9: when the options do not hold the key ['plot_type'], construction
    succeeds for every requested kind, supported or not: the kind is not
    looked up, no [ValueError] is raised, and the chart operation is
    [scatter]. *)
Theorem plot_init_without_flag (plot_type : string) (fields : list (list string))
    (interval : option (list (Z * string))) (win env : option string)
    (opts : gmap string value) (v : Visdom) :
  opts !! "plot_type" = None ->
  exists l : t,
    __init__ plot_type fields interval win env opts (tt, v) = (Ok l, (tt, v)) /\
    chart l = scatter /\
    BaseVisdomLogger.opts (logger l) = opts /\
    BaseVisdomLogger.win (logger l) = win.
Proof.
  intros Hflag. rewrite init_unfold, Hflag. cbv zeta.
  eexists. split; [reflexivity|]. by cbn.
Qed.

Lemma plot_init_without_flag_witness :
  ({[ "title" := VStr "loss" ]} : gmap string value) !! "plot_type" = None /\
  exists l : t,
    __init__ "bogus" [["loss"]] None None None {[ "title" := VStr "loss" ]}
      (tt, sample_viz) = (Ok l, (tt, sample_viz)) /\
    chart l = scatter.
Proof.
  assert (Hflag : ({[ "title" := VStr "loss" ]} : gmap string value) !! "plot_type"
                  = None) by reflexivity.
  split; [exact Hflag|].
  destruct (plot_init_without_flag "bogus" [["loss"]] None None None
              {[ "title" := VStr "loss" ]} sample_viz Hflag)
    as (l & Hmade & Hchart & _).
  exists l. split; [exact Hmade | exact Hchart].
Defined.
End PlotInit.

(** ** The text logger *)

Section TextLogger.
Import VisdomTextLogger.

Lemma valid_update_types_spec (update_type : string) :
  update_type ∈ valid_update_types <->
  update_type = "REPLACE" \/ update_type = "APPEND".
Proof.
  unfold valid_update_types.
  rewrite elem_of_cons, list_elem_of_singleton. reflexivity.
Qed.

(** C6: constructing a text logger with an update type other than
    ["REPLACE"] and ["APPEND"] raises the [ValueError] for the update type
    and leaves the server as it was, no call having been issued; with one of
    the two the constructor succeeds, the logger holds that update type and
    an empty text, and the server is as it was too. *)
Theorem text_init_update_type (fields : list (list string))
    (interval : option (list (Z * string))) (win env : option string)
    (opts : gmap string value) (update_type : string) (v : Visdom) :
  let b := {| BaseVisdomLogger.fields := fields;
              BaseVisdomLogger.interval := interval;
              BaseVisdomLogger.win := win;
              BaseVisdomLogger.env := env;
              BaseVisdomLogger.opts := opts |} in
  let made := __init__ fields interval win env opts update_type (tt, v) in
  (update_type ≠ "REPLACE" -> update_type ≠ "APPEND" ->
     made = (Raise (ValueError (UpdateTypeNotFound update_type)), (tt, v))) /\
  (update_type = "REPLACE" \/ update_type = "APPEND" ->
     made = (Ok {| logger := b; text := EmptyString; update_type := update_type |},
             (tt, v))).
Proof.
  intros b made. subst made b.
  unfold __init__, BaseVisdomLogger.__init__, mbind, M_bind, mret, M_ret, raise.
  cbn. split.
  - intros Hr Ha. rewrite bool_decide_eq_true_2; [reflexivity|].
    rewrite valid_update_types_spec. tauto.
  - intros Hvalid. rewrite bool_decide_eq_false_2; [reflexivity|].
    intros Hnot. apply Hnot. by apply valid_update_types_spec.
Qed.

Lemma text_init_update_type_witness :
  "BOGUS" ≠ "REPLACE" /\ "BOGUS" ≠ "APPEND" /\
  __init__ [["progress"]] None None None ∅ "BOGUS" (tt, sample_viz) =
    (Raise (ValueError (UpdateTypeNotFound "BOGUS")), (tt, sample_viz)) /\
  __init__ [["progress"]] None None None ∅ "APPEND" (tt, sample_viz) =
    (Ok {| logger := {| BaseVisdomLogger.fields := [["progress"]];
                        BaseVisdomLogger.interval := None;
                        BaseVisdomLogger.win := None;
                        BaseVisdomLogger.env := None;
                        BaseVisdomLogger.opts := ∅ |};
           text := EmptyString; update_type := "APPEND" |}, (tt, sample_viz)).
Proof.
  split; [discriminate|]. split; [discriminate|]. split.
  - apply (text_init_update_type [["progress"]] None None None ∅ "BOGUS" sample_viz);
      discriminate.
  - apply (text_init_update_type [["progress"]] None None None ∅ "APPEND" sample_viz).
    by right.
Defined.

(** One [log] call: the new text, the one call to [viz.text] carrying it,
    and the window the server answers. *)
Lemma text_log_unfold (l : t) (v : Visdom) (msg : string) (args : list value)
    (kw : kwargs) :
  let txt := if String.eqb (update_type l) "APPEND" && negb (String.eqb (text l) EmptyString)
             then text l ++ "<br>" ++ msg else msg in
  let c := VizText [txt] (BaseVisdomLogger.win (logger l))
             (BaseVisdomLogger.env (logger l)) (BaseVisdomLogger.opts (logger l)) in
  log msg args kw (l, v) =
    (Ok tt,
     ({| logger := BaseVisdomLogger.set_win (Some (reply v (sent v) c)) (logger l);
         text := txt; update_type := update_type l |},
      after v [c])).
Proof.
  unfold log, viz_logger, _viz_prototype, mbind, M_bind, get_self, set_self, viz_call.
  cbn.
  destruct (String.eqb (update_type l) "APPEND" && negb (String.eqb (text l) EmptyString));
    reflexivity.
Qed.

(** C4: [log "a"] then [log "b"] both succeed and leave the text ["b"] on a
    logger in REPLACE mode, and ["a<br>b"] on a logger in APPEND mode whose
    text was empty, as it is after construction.  For one call: in APPEND
    mode with a text already there, the new text is the old one, ["<br>"],
    and the message; with an empty text, or in REPLACE mode, it is the
    message. *)
Theorem text_log_accumulates (l : t) (v : Visdom) :
  (update_type l = "REPLACE" -> text_after_a_b l v = (Ok tt, "b")) /\
  (update_type l = "APPEND" -> text l = EmptyString ->
     text_after_a_b l v = (Ok tt, "a<br>b")) /\
  (forall (msg : string) (args : list value) (kw : kwargs),
     let l' := fst (snd (log msg args kw (l, v))) in
     (update_type l = "APPEND" -> text l ≠ EmptyString ->
        text l' = text l ++ "<br>" ++ msg) /\
     (text l = EmptyString -> text l' = msg) /\
     (update_type l = "REPLACE" -> text l' = msg)).
Proof.
  split; [|split].
  - intros Hmode. unfold text_after_a_b, mbind, M_bind.
    rewrite text_log_unfold. cbv zeta. rewrite text_log_unfold. cbn.
    by rewrite Hmode.
  - intros Hmode Htext. unfold text_after_a_b, mbind, M_bind.
    rewrite text_log_unfold. cbv zeta. rewrite text_log_unfold. cbn.
    by rewrite Hmode, Htext.
  - intros msg args kw l'. subst l'. rewrite text_log_unfold. cbn.
    split; [|split].
    + intros -> Htext. cbn.
      destruct (String.eqb_spec (text l) EmptyString); [done | reflexivity].
    + intros ->. cbn. by rewrite andb_false_r.
    + by intros ->.
Qed.

Lemma text_log_accumulates_witness :
  let made := fun mode : string =>
    {| logger := {| BaseVisdomLogger.fields := [["progress"]];
                    BaseVisdomLogger.interval := None;
                    BaseVisdomLogger.win := None;
                    BaseVisdomLogger.env := None;
                    BaseVisdomLogger.opts := ∅ |};
       text := EmptyString; update_type := mode |} in
  __init__ [["progress"]] None None None ∅ "REPLACE" (tt, sample_viz) =
    (Ok (made "REPLACE"), (tt, sample_viz)) /\
  __init__ [["progress"]] None None None ∅ "APPEND" (tt, sample_viz) =
    (Ok (made "APPEND"), (tt, sample_viz)) /\
  text_after_a_b (made "REPLACE") sample_viz = (Ok tt, "b") /\
  text_after_a_b (made "APPEND") sample_viz = (Ok tt, "a<br>b").
Proof.
  intros made. split; [reflexivity|]. split; [reflexivity|].
  destruct (text_log_accumulates (made "REPLACE") sample_viz) as (Hreplace & _ & _).
  destruct (text_log_accumulates (made "APPEND") sample_viz) as (_ & Happend & _).
  split; [apply Hreplace | apply Happend]; reflexivity.
Defined.
End TextLogger.

(** ** Gathering the fields *)

Section Gathering.

Lemma walk_stored (stats : value) (path : list string) (v : value) :
  stored_at stats path v ->
  forall parent : option value,
    exists parent' : option value, walk parent stats path = Ok (parent', v).
Proof.
  induction 1 as [v | m k path child v Hk _ IH]; intros parent; cbn.
  - by exists parent.
  - rewrite Hk. apply IH.
Qed.

Lemma walk_absent (stats : value) (path : list string) (k : string) :
  absent_key stats path k ->
  forall parent : option value, walk parent stats path = Raise (KeyError k).
Proof.
  induction 1 as [m k path Hk | m k k' path child Hk _ IH]; intros parent; cbn.
  - by rewrite Hk.
  - rewrite Hk. apply IH.
Qed.

(** The value stored at a path is unique. *)
Lemma stored_at_functional (stats : value) (path : list string) (v1 v2 : value) :
  stored_at stats path v1 -> stored_at stats path v2 -> v1 = v2.
Proof.
  intros H1 H2.
  destruct (walk_stored _ _ _ H1 None) as [p1 E1].
  destruct (walk_stored _ _ _ H2 None) as [p2 E2].
  congruence.
Qed.

Lemma gather_stored (stats : value) (fields : list (list string)) (vs : list value) :
  Forall2 (stored_at stats) fields vs ->
  forall results : list value, gather stats fields results = Ok (results ++ vs)%list.
Proof.
  induction 1 as [| field v fields vs Hfield _ IH]; intros results; cbn.
  - by rewrite app_nil_r.
  - destruct (walk_stored _ _ _ Hfield None) as [parent ->].
    rewrite IH. by rewrite <- app_assoc.
Qed.

Lemma gather_absent (stats : value) (done : list (list string)) (vs : list value)
    (field : list string) (rest : list (list string)) (k : string) :
  Forall2 (stored_at stats) done vs ->
  absent_key stats field k ->
  forall results : list value,
    gather stats (done ++ field :: rest) results = Raise (KeyError k).
Proof.
  intros Hdone Habsent.
  induction Hdone as [| d v done vs Hd _ IH]; intros results; cbn.
  - by rewrite (walk_absent _ _ _ Habsent).
  - destruct (walk_stored _ _ _ Hd None) as [parent ->]. apply IH.
Qed.

Lemma walk_below (stats : value) (path : list string) :
  below_leaf stats path ->
  forall parent : option value, walk parent stats path = Raise TypeError.
Proof.
  induction 1 as [leaf k path Hleaf | m k path child Hk _ IH]; intros parent; cbn.
  - destruct leaf; try reflexivity. by destruct (Hleaf m).
  - rewrite Hk. apply IH.
Qed.

Lemma gather_below (stats : value) (done : list (list string)) (vs : list value)
    (field : list string) (rest : list (list string)) :
  Forall2 (stored_at stats) done vs ->
  below_leaf stats field ->
  forall results : list value,
    gather stats (done ++ field :: rest) results = Raise TypeError.
Proof.
  intros Hdone Hbelow.
  induction Hdone as [| d v done vs Hd _ IH]; intros results; cbn.
  - by rewrite (walk_below _ _ Hbelow).
  - destruct (walk_stored _ _ _ Hd None) as [parent ->]. apply IH.
Qed.

(** Every path falls under one of the three cases. *)
Lemma path_cases (path : list string) :
  forall stats : value,
    (exists leaf, stored_at stats path leaf) \/
    (exists k, absent_key stats path k) \/
    below_leaf stats path.
Proof.
  induction path as [|k path IH]; intros stats.
  - left. exists stats. constructor.
  - destruct stats as [| | |m];
      try (right; right; constructor; discriminate).
    destruct (m !! k) as [child|] eqn:Hk.
    + destruct (IH child) as [[leaf Hleaf] | [[k' Habsent] | Hbelow]].
      * left. exists leaf. by econstructor.
      * right. left. exists k'. by eapply absent_below.
      * right. right. by eapply below_deeper.
    + right. left. exists k. by constructor.
Qed.

Context {L : Type} `{VisdomObject L}.

(** C5, as amended: the field-gathering routine follows each configured path
    by sequential key lookups.  A path all of whose keys are present yields
    exactly the value stored at it, and when every configured path is such,
    the routine hands these values, in order, to [log].  A path on which a
    mapping does not hold the next key raises [KeyError] for that key; a
    path that goes on below a value that is not a mapping raises
    [TypeError]; every path is of one of the three kinds.  The routine
    raises the error of the first configured path that does not resolve:
    [log] is not called, the logger and the server stay as they were. *)
Theorem log_all_gathers_fields (log : list value -> kwargs -> M L unit)
    (stats : value) (log_fields : string) (prefix suffix : option string)
    (require_dict : bool) (l : L) (v : Visdom) :
  (forall (path : list string) (leaf : value),
     stored_at stats path leaf ->
     exists parent, walk None stats path = Ok (parent, leaf)) /\
  (forall (path : list string) (k : string),
     absent_key stats path k -> walk None stats path = Raise (KeyError k)) /\
  (forall path : list string,
     below_leaf stats path -> walk None stats path = Raise TypeError) /\
  (forall path : list string,
     (exists leaf, stored_at stats path leaf) \/
     (exists k, absent_key stats path k) \/
     below_leaf stats path) /\
  (forall vs : list value,
     Forall2 (stored_at stats) (BaseVisdomLogger.fields (base l)) vs ->
     BaseVisdomLogger_log_all log stats log_fields prefix suffix require_dict (l, v) =
       log vs [] (l, v)) /\
  (forall (done : list (list string)) (vs : list value) (field : list string)
          (rest : list (list string)),
     BaseVisdomLogger.fields (base l) = (done ++ field :: rest)%list ->
     Forall2 (stored_at stats) done vs ->
     (forall k : string,
        absent_key stats field k ->
        BaseVisdomLogger_log_all log stats log_fields prefix suffix require_dict (l, v) =
          (Raise (KeyError k), (l, v))) /\
     (below_leaf stats field ->
        BaseVisdomLogger_log_all log stats log_fields prefix suffix require_dict (l, v) =
          (Raise TypeError, (l, v)))).
Proof.
  split; [|split; [|split; [|split; [|split]]]].
  - intros path leaf Hstored. exact (walk_stored _ _ _ Hstored None).
  - intros path k Habsent. exact (walk_absent _ _ _ Habsent None).
  - intros path Hbelow. exact (walk_below _ _ Hbelow None).
  - intros path. apply path_cases.
  - intros vs Hall.
    unfold BaseVisdomLogger_log_all, mbind, M_bind, get_self, lift. cbn.
    by rewrite (gather_stored _ _ _ Hall).
  - intros done vs field rest Hfields Hdone.
    unfold BaseVisdomLogger_log_all, mbind, M_bind, get_self, lift. cbn.
    rewrite Hfields. split.
    + intros k Habsent. by rewrite (gather_absent _ _ _ _ _ _ Hdone Habsent).
    + intros Hbelow. by rewrite (gather_below _ _ _ _ _ Hdone Hbelow).
Qed.

End Gathering.

Lemma sample_stats_percent : stored_at sample_stats ["progress"; "percent"] (VNum 42).
Proof.
  unfold sample_stats.
  eapply stored_below; [reflexivity|].
  eapply stored_below; [reflexivity|].
  constructor.
Qed.

Lemma sample_progress_stored :
  Forall2 (stored_at sample_progress)
    (BaseVisdomLogger.fields (base (sample_scatter None))) [VNum 64; VNum 42].
Proof.
  unfold sample_progress. cbn [sample_scatter base VisdomPlotLogger.object
    VisdomPlotLogger.logger BaseVisdomLogger.fields].
  constructor; [|constructor; [|constructor]].
  - eapply stored_below; [reflexivity|]. eapply stored_below; [reflexivity|].
    apply stored_here.
  - eapply stored_below; [reflexivity|]. eapply stored_below; [reflexivity|].
    apply stored_here.
Qed.

Lemma log_all_gathers_fields_witness :
  Forall2 (stored_at sample_progress)
    (BaseVisdomLogger.fields (base (sample_scatter None))) [VNum 64; VNum 42] /\
  absent_key sample_stats ["progress"; "samples_used"] "samples_used" /\
  below_leaf sample_stats ["progress"; "percent"; "last"] /\
  VisdomPlotLogger._log_all sample_progress "log_iter_fields" None None false
    (sample_scatter None, sample_viz) =
    VisdomPlotLogger.log [VNum 64; VNum 42] [] (sample_scatter None, sample_viz) /\
  VisdomPlotLogger._log_all sample_stats "log_iter_fields" None None false
    (sample_scatter None, sample_viz) =
    (Raise (KeyError "samples_used"), (sample_scatter None, sample_viz)) /\
  walk None sample_stats ["progress"; "percent"; "last"] = Raise TypeError.
Proof.
  assert (Habsent : absent_key sample_stats ["progress"; "samples_used"] "samples_used").
  { unfold sample_stats. eapply absent_below; [reflexivity|]. by constructor. }
  assert (Hbelow : below_leaf sample_stats ["progress"; "percent"; "last"]).
  { unfold sample_stats. eapply below_deeper; [reflexivity|].
    eapply below_deeper; [reflexivity|]. constructor. discriminate. }
  split; [exact sample_progress_stored|]. split; [exact Habsent|].
  split; [exact Hbelow|].
  destruct (log_all_gathers_fields VisdomPlotLogger.log sample_progress
              "log_iter_fields" None None false (sample_scatter None) sample_viz)
    as (_ & _ & _ & _ & Hlog & _).
  destruct (log_all_gathers_fields VisdomPlotLogger.log sample_stats
              "log_iter_fields" None None false (sample_scatter None) sample_viz)
    as (_ & _ & Hwalk & _ & _ & Hraise).
  split; [exact (Hlog _ sample_progress_stored)|]. split.
  - apply (Hraise [] [] ["progress"; "samples_used"] [["progress"; "percent"]]);
      [reflexivity | constructor | exact Habsent].
  - exact (Hwalk _ Hbelow).
Defined.

(** The claim C5 as it is worded fails when a key is sought below a value
    that is not a mapping: with the statistics [{'progress': 42}] the key
    [percent] of the path [progress.percent] is absent, and the routine
    raises [TypeError], not [KeyError], on the scatter logger of that one
    field. *)
Lemma log_all_below_leaf_type_error :
  let stats := VDict {[ "progress" := VNum 42 ]} in
  let l := {| VisdomPlotLogger.logger :=
                {| BaseVisdomLogger.fields := [["progress"; "percent"]];
                   BaseVisdomLogger.interval := None;
                   BaseVisdomLogger.win := None;
                   BaseVisdomLogger.env := None;
                   BaseVisdomLogger.opts := ∅ |};
              VisdomPlotLogger.chart := scatter |} in
  VisdomPlotLogger.__init__ "scatter" [["progress"; "percent"]] None None None ∅
    (tt, sample_viz) = (Ok l, (tt, sample_viz)) /\
  getitem stats "progress" = Ok (VNum 42) /\
  getitem (VNum 42) "percent" = Raise TypeError /\
  VisdomPlotLogger._log_all stats "log_iter_fields" None None false (l, sample_viz) =
    (Raise TypeError, (l, sample_viz)).
Proof. split; [reflexivity|]. split; [reflexivity|]. split; reflexivity. Qed.

(** ** Persisting the session *)

Lemma count_saves_app (cs ds : list call) :
  count_saves (cs ++ ds) = count_saves cs + count_saves ds.
Proof. unfold count_saves. by rewrite List.filter_app, length_app. Qed.

(** What the end-of-epoch hook does after the hook of the parent class:
    [self.viz.save()] passes no environments, and the call does not fit
    [viz.save]. *)
Lemma epoch_unfold {L : Type} (super_epoch : Z -> M L unit) (epoch_idx : Z)
    (s : L * Visdom) :
  BaseVisdomLogger_epoch super_epoch epoch_idx s =
    match super_epoch epoch_idx s with
    | (Ok _, s1) => (Raise TypeError, s1)
    | (Raise e, s1) => (Raise e, s1)
    end.
Proof.
  unfold BaseVisdomLogger_epoch, mbind, M_bind.
  destruct (super_epoch epoch_idx s) as [[[] | e] s1]; reflexivity.
Qed.

(** C7, which the code breaks: the end-of-epoch hook of a logger of any
    class deriving from [BaseVisdomLogger] never issues a save call.  When
    the field logging, the hook of the parent class, completes, the call
    [self.viz.save()] raises [TypeError] for the environments it does not
    pass, the hook fails, and the server has received the calls of the field
    logging and nothing else; when the field logging raises, the hook raises
    the same exception before the save is reached.  The saver's
    [self.viz.save(self.envs)] is the call that passes them. *)
Theorem epoch_save_rejected {L : Type} (super_epoch : Z -> M L unit) (epoch_idx : Z)
    (l : L) (v : Visdom) :
  (forall (l1 : L) (v1 : Visdom),
     super_epoch epoch_idx (l, v) = (Ok tt, (l1, v1)) ->
     BaseVisdomLogger_epoch super_epoch epoch_idx (l, v) = (Raise TypeError, (l1, v1))) /\
  (forall (e : exn) (l1 : L) (v1 : Visdom),
     super_epoch epoch_idx (l, v) = (Raise e, (l1, v1)) ->
     BaseVisdomLogger_epoch super_epoch epoch_idx (l, v) = (Raise e, (l1, v1))).
Proof.
  split.
  - intros l1 v1 Hsuper. by rewrite epoch_unfold, Hsuper.
  - intros e l1 v1 Hsuper. by rewrite epoch_unfold, Hsuper.
Qed.

Lemma epoch_save_rejected_witness :
  let opts := ({[ "title" := VStr "progress" ]} : gmap string value) in
  let hook := Logger_epoch (VisdomPlotLogger._log_all sample_progress)
                "log_epoch_fields" None None false in
  let plotted := after sample_viz
                   [VizChart scatter (np_array [[VNum 64; VNum 42]]) None
                      (Some "main") opts] in
  let l1 := {| VisdomPlotLogger.logger :=
                 BaseVisdomLogger.set_win (Some "window_0")
                   (BaseVisdomLogger.set_opts (<[ "markersize" := VNum 10 ]> opts)
                      (VisdomPlotLogger.logger (sample_scatter None)));
               VisdomPlotLogger.chart := scatter |} in
  hook 3%Z (sample_scatter None, sample_viz) = (Ok tt, (l1, plotted)) /\
  BaseVisdomLogger_epoch hook 3%Z (sample_scatter None, sample_viz) =
    (Raise TypeError, (l1, plotted)) /\
  count_saves (sent plotted) = 0.
Proof.
  intros opts hook plotted l1.
  assert (Hhook : hook 3%Z (sample_scatter None, sample_viz) = (Ok tt, (l1, plotted)))
    by reflexivity.
  split; [exact Hhook|].
  destruct (epoch_save_rejected hook 3%Z (sample_scatter None) sample_viz) as [Hok _].
  split; [exact (Hok _ _ Hhook) | reflexivity].
Defined.

(** C8: a saver constructed with the interval [[(1, 'epoch')]] has [epoch]
    bound to [save], and each firing of the epoch hook, whatever its
    arguments, issues exactly one save call, which carries the whole
    configured list of environments; the saver is left as it was. *)
Theorem saver_epoch_saves_once (envs : option (list string)) (args : list value)
    (v0 v : Visdom) :
  let saver := {| VisdomSaver.trigger_interval := [(1%Z, "epoch")];
                  VisdomSaver.envs := envs;
                  VisdomSaver.hooks := ["epoch"] |} in
  VisdomSaver.__init__ envs [(1%Z, "epoch")] (tt, v0) = (Ok saver, (tt, v0)) /\
  VisdomSaver.fire "epoch" args (saver, v) =
    (Ok tt, (saver, after v [VizSave [envs]])) /\
  count_saves (sent (after v [VizSave [envs]])) = count_saves (sent v) + 1.
Proof.
  intros saver. split; [reflexivity|]. split; [reflexivity|].
  cbn [after sent]. by rewrite count_saves_app.
Qed.

(** * Further properties *)

(** ** The walk along a field path *)

Section Walk.

Lemma walk_ok_stored (path : list string) :
  forall (parent parent' : option value) (stats v : value),
    walk parent stats path = Ok (parent', v) -> stored_at stats path v.
Proof.
  induction path as [|k path IH]; intros parent parent' stats v; cbn.
  - intros [= _ <-]. constructor.
  - destruct stats as [| | |m]; cbn; try discriminate.
    destruct (m !! k) as [child|] eqn:Hk; [|discriminate].
    intros Hwalk. eapply stored_below; [exact Hk|]. eapply IH, Hwalk.
Qed.

Lemma walk_key_error_absent (path : list string) :
  forall (parent : option value) (stats : value) (k : string),
    walk parent stats path = Raise (KeyError k) -> absent_key stats path k.
Proof.
  induction path as [|k' path IH]; intros parent stats k; cbn; [discriminate|].
  destruct stats as [| | |m]; cbn; try discriminate.
  destruct (m !! k') as [child|] eqn:Hk.
  - intros Hwalk. eapply absent_below; [exact Hk|]. eapply IH, Hwalk.
  - intros [= <-]. by constructor.
Qed.

Lemma walk_errors (path : list string) :
  forall (parent : option value) (stats : value) (e : exn),
    walk parent stats path = Raise e ->
    e = TypeError \/ exists k : string, k ∈ path /\ e = KeyError k.
Proof.
  induction path as [|k path IH]; intros parent stats e; cbn; [discriminate|].
  destruct stats as [| | |m]; cbn; try (intros [= <-]; by left).
  destruct (m !! k) as [child|] eqn:Hk.
  - intros Hwalk. destruct (IH _ _ _ Hwalk) as [-> | (k' & Hin & ->)]; [by left|].
    right. exists k'. split; [apply elem_of_cons; by right | reflexivity].
  - intros [= <-]. right. exists k. split; [apply elem_of_cons; by left | reflexivity].
Qed.

Lemma walk_app (pre post : list string) :
  forall (parent : option value) (stats : value),
    walk parent stats (pre ++ post) =
      match walk parent stats pre with
      | Ok (parent', mid) => walk parent' mid post
      | Raise e => Raise e
      end.
Proof.
  induction pre as [|k pre IH]; intros parent stats; cbn; [reflexivity|].
  destruct (getitem stats k) as [child|e]; [apply IH | reflexivity].
Qed.

(** X1: the walk along a path returns a value exactly when every key of the
    path is present, one mapping inside the other, and the value is the one
    stored there; it raises [KeyError] for a key exactly when, following the
    path, a mapping is reached that does not hold that key. *)
Theorem walk_characterised (stats : value) (path : list string) :
  (forall v : value,
     (exists parent, walk None stats path = Ok (parent, v)) <->
     stored_at stats path v) /\
  (forall k : string,
     walk None stats path = Raise (KeyError k) <-> absent_key stats path k).
Proof.
  split.
  - intros v. split.
    + intros [parent Hwalk]. exact (walk_ok_stored _ _ _ _ _ Hwalk).
    + intros Hstored. exact (walk_stored _ _ _ Hstored None).
  - intros k. split.
    + apply walk_key_error_absent.
    + intros Habsent. exact (walk_absent _ _ _ Habsent None).
Qed.

Lemma walk_characterised_witness :
  stored_at sample_stats ["progress"; "percent"] (VNum 42) /\
  absent_key sample_stats ["progress"; "samples"] "samples".
Proof.
  split.
  - apply (proj1 (walk_characterised sample_stats ["progress"; "percent"])).
    eexists. reflexivity.
  - apply (proj2 (walk_characterised sample_stats ["progress"; "samples"])).
    reflexivity.
Defined.

(** X2: the walk raises nothing but a [KeyError] for one of the keys of the
    path or a [TypeError]; and it raises the [TypeError] whenever the path
    goes on below a value that is not a mapping. *)
Theorem walk_error_kinds (stats : value) (path : list string) :
  (forall e : exn,
     walk None stats path = Raise e ->
     e = TypeError \/ exists k : string, k ∈ path /\ e = KeyError k) /\
  (forall (pre post : list string) (k : string) (leaf : value),
     path = (pre ++ k :: post)%list ->
     stored_at stats pre leaf ->
     (forall m, leaf ≠ VDict m) ->
     walk None stats path = Raise TypeError).
Proof.
  split.
  - apply walk_errors.
  - intros pre post k leaf -> Hpre Hleaf.
    rewrite walk_app. destruct (walk_stored _ _ _ Hpre None) as [parent ->].
    cbn. destruct leaf; try reflexivity. by destruct (Hleaf m).
Qed.

Lemma walk_error_kinds_witness :
  walk None sample_stats ["progress"; "percent"; "last"] = Raise TypeError.
Proof.
  apply (proj2 (walk_error_kinds sample_stats ["progress"; "percent"; "last"])
           ["progress"; "percent"] [] "last" (VNum 42)).
  - reflexivity.
  - exact sample_stats_percent.
  - discriminate.
Defined.

(** X3: the parent the walk returns is [None] for the empty path, and for a
    path that ends with the key [k] it is the mapping reached by the keys
    before [k], which holds the returned value under [k]. *)
Theorem walk_parent (stats : value) :
  walk None stats [] = Ok (None, stats) /\
  (forall (path : list string) (k : string) (parent : option value) (v : value),
     walk None stats (path ++ [k]) = Ok (parent, v) ->
     exists m : gmap string value,
       parent = Some (VDict m) /\ stored_at stats path (VDict m) /\ m !! k = Some v).
Proof.
  split; [reflexivity|].
  intros path k parent v. rewrite walk_app.
  destruct (walk None stats path) as [[parent' mid]|e] eqn:Hpath; [|discriminate].
  cbn. destruct mid as [| | |m]; cbn; try discriminate.
  destruct (m !! k) as [child|] eqn:Hk; [|discriminate].
  intros [= <- <-]. exists m. repeat split; [|exact Hk].
  exact (walk_ok_stored _ _ _ _ _ Hpath).
Qed.

Lemma walk_parent_witness :
  exists m : gmap string value,
    Some (VDict {[ "percent" := VNum 42 ]}) = Some (VDict m) /\
    stored_at sample_stats ["progress"] (VDict m) /\
    m !! "percent" = Some (VNum 42).
Proof.
  apply (proj2 (walk_parent sample_stats) ["progress"] "percent").
  reflexivity.
Defined.

End Walk.

(** ** Gathering, in full *)

Section GatherAll.

Lemma gather_ok_stored (stats : value) (fields : list (list string)) :
  forall results out : list value,
    gather stats fields results = Ok out ->
    exists vs : list value,
      out = (results ++ vs)%list /\ Forall2 (stored_at stats) fields vs.
Proof.
  induction fields as [|field fields IH]; intros results out; cbn.
  - intros [= <-]. exists []. split; [by rewrite app_nil_r | constructor].
  - destruct (walk None stats field) as [[parent v]|e] eqn:Hwalk; [|discriminate].
    intros Hrest. destruct (IH _ _ Hrest) as (vs & -> & Hall).
    exists (v :: vs). split; [by rewrite <- app_assoc|].
    constructor; [|exact Hall]. exact (walk_ok_stored _ _ _ _ _ Hwalk).
Qed.

Lemma gather_errors (stats : value) (fields : list (list string)) :
  forall (results : list value) (e : exn),
    gather stats fields results = Raise e ->
    e = TypeError \/ exists k : string, e = KeyError k.
Proof.
  induction fields as [|field fields IH]; intros results e; cbn; [discriminate|].
  destruct (walk None stats field) as [[parent v]|e'] eqn:Hwalk.
  - apply IH.
  - intros [= <-]. destruct (walk_errors _ _ _ _ Hwalk) as [-> | (k & _ & ->)];
      [by left | right; by exists k].
Qed.

(** X4: gathering succeeds exactly when every configured path has all its
    keys, and then returns one value per path, in the order of the paths,
    each the value stored at its path. *)
Theorem gather_characterised (stats : value) (fields : list (list string))
    (vs : list value) :
  gather stats fields [] = Ok vs <-> Forall2 (stored_at stats) fields vs.
Proof.
  split.
  - intros Hgather. destruct (gather_ok_stored _ _ _ _ Hgather) as (vs' & -> & Hall).
    exact Hall.
  - intros Hall. exact (gather_stored _ _ _ Hall []).
Qed.

Lemma gather_characterised_witness :
  Forall2 (stored_at sample_stats) [["progress"; "percent"]; ["progress"]]
    [VNum 42; VDict {[ "percent" := VNum 42 ]}].
Proof.
  apply (proj1 (gather_characterised sample_stats
                  [["progress"; "percent"]; ["progress"]]
                  [VNum 42; VDict {[ "percent" := VNum 42 ]}])).
  reflexivity.
Defined.

Context {L : Type} `{VisdomObject L}.

(** X5: when some configured path does not resolve, [_log_all] raises a
    [KeyError] or a [TypeError], the same whatever the [log] method is,
    without calling [log]: the logger and the server are as they were, and
    no partial list of values is ever logged. *)
Theorem log_all_failure_atomic (stats : value) (log_fields : string)
    (prefix suffix : option string) (require_dict : bool) (l : L) (v : Visdom) :
  (forall vs, ~ Forall2 (stored_at stats) (BaseVisdomLogger.fields (base l)) vs) ->
  exists e : exn,
    (e = TypeError \/ exists k : string, e = KeyError k) /\
    forall log : list value -> kwargs -> M L unit,
      BaseVisdomLogger_log_all log stats log_fields prefix suffix require_dict (l, v) =
        (Raise e, (l, v)).
Proof.
  intros Hnone.
  destruct (gather stats (BaseVisdomLogger.fields (base l)) []) as [vs|e] eqn:Hgather.
  - destruct (gather_ok_stored _ _ _ _ Hgather) as (vs' & _ & Hall).
    by destruct (Hnone vs').
  - exists e. split; [exact (gather_errors _ _ _ _ Hgather)|].
    intros log. unfold BaseVisdomLogger_log_all, mbind, M_bind, get_self, lift. cbn.
    by rewrite Hgather.
Qed.


End GatherAll.

Lemma log_all_failure_atomic_witness :
  exists e : exn,
    (e = TypeError \/ exists k : string, e = KeyError k) /\
    forall log : list value -> kwargs -> M VisdomPlotLogger.t unit,
      BaseVisdomLogger_log_all log (VDict ∅) "log_iter_fields" None None false
        (sample_plot None, sample_viz) = (Raise e, (sample_plot None, sample_viz)).
Proof.
  apply (log_all_failure_atomic (VDict ∅) "log_iter_fields" None None false
           (sample_plot None) sample_viz).
  intros vs Hall. pose proof (gather_stored _ _ _ Hall []) as Hgather.
  cbn in Hgather. discriminate.
Defined.


(** ** The generic logger *)

Section GenericLogger.
Import VisdomLogger.




(** X7: the generic logger is constructed exactly when the client has a
    method of the requested name; it then keeps the name, the fields, the
    window, the environment and the options it was given.  Otherwise the
    constructor raises [AttributeError] for the name.  The server is not
    called in either case. *)
Theorem generic_init (plot_type : string) (fields : list (list string))
    (interval : option (list (Z * string))) (win env : option string)
    (opts : gmap string value) (v : Visdom) :
  let b := {| BaseVisdomLogger.fields := fields;
              BaseVisdomLogger.interval := interval;
              BaseVisdomLogger.win := win;
              BaseVisdomLogger.env := env;
              BaseVisdomLogger.opts := opts |} in
  let made := __init__ plot_type fields interval win env opts (tt, v) in
  (plot_type ∈ methods v ->
     made = (Ok {| logger := b; plot_type := plot_type; chart := plot_type |},
             (tt, v))) /\
  (plot_type ∉ methods v ->
     made = (Raise (AttributeError plot_type), (tt, v))).
Proof.
  intros b made. subst made b.
  unfold __init__, BaseVisdomLogger.__init__, mbind, M_bind, mret, M_ret, raise,
    get_viz. cbn. split; intros Hin.
  - by rewrite bool_decide_eq_true_2.
  - by rewrite bool_decide_eq_false_2.
Qed.

Lemma generic_init_witness :
  ("histogram" ∈ methods sample_viz) /\ ("heatmap" ∉ methods sample_viz) /\
  __init__ "heatmap" [["random"; "data"]] None None None ∅ (tt, sample_viz) =
    (Raise (AttributeError "heatmap"), (tt, sample_viz)) /\
  exists l : t,
    __init__ "histogram" [["random"; "data"]] None None None ∅ (tt, sample_viz) =
      (Ok l, (tt, sample_viz)) /\ chart l = "histogram".
Proof.
  assert (Hin : "histogram" ∈ methods sample_viz) by (cbn; set_solver).
  assert (Hout : "heatmap" ∉ methods sample_viz).
  { cbn. rewrite !not_elem_of_cons. repeat split; try discriminate.
    apply not_elem_of_nil. }
  split; [exact Hin|]. split; [exact Hout|]. split.
  - apply (generic_init "heatmap" [["random"; "data"]] None None None ∅ sample_viz).
    exact Hout.
  - eexists. split.
    + apply (generic_init "histogram" [["random"; "data"]] None None None ∅
               sample_viz). exact Hin.
    + reflexivity.
Defined.





End GenericLogger.

(** ** The plot logger, further *)

Section PlotLoggerMore.
Import VisdomPlotLogger.

(** What a successful construction returns. *)
Lemma init_ok_logger (plot_type : string) (fields : list (list string))
    (interval : option (list (Z * string))) (win env : option string)
    (opts : gmap string value) (v0 : Visdom) (l : t) (st : unit * Visdom) :
  __init__ plot_type fields interval win env opts (tt, v0) = (Ok l, st) ->
  logger l = {| BaseVisdomLogger.fields := fields;
                BaseVisdomLogger.interval := interval;
                BaseVisdomLogger.win := win;
                BaseVisdomLogger.env := env;
                BaseVisdomLogger.opts := opts |}.
Proof.
  rewrite init_unfold. cbv zeta.
  destruct (opts !! "plot_type").
  - destruct (valid_plot_types !! plot_type); [|discriminate]. by intros [= <- _].
  - by intros [= <- _].
Qed.

(** X10: a plot logger constructed with a window identifier never creates a
    plot: whatever [log] calls follow, it keeps that identifier, the calls it
    issues are the appends of the two-value calls on that identifier, and
    none of them is a create call. *)
Theorem plot_given_window_never_creates (plot_type : string)
    (fields : list (list string)) (interval : option (list (Z * string)))
    (w : string) (env : option string) (opts : gmap string value)
    (v0 v : Visdom) (l : t) (calls : list (list value * kwargs)) :
  __init__ plot_type fields interval (Some w) env opts (tt, v0) = (Ok l, (tt, v0)) ->
  let appends := flat_map (fun c => appended w env opts (fst c)) calls in
  log_each calls (l, v) = (l, after v appends) /\
  List.filter is_create appends = [].
Proof.
  intros Hmade appends. pose proof (init_ok_logger _ _ _ _ _ _ _ _ _ Hmade) as Hl.
  split; [|apply appended_no_create].
  rewrite (log_each_with_window calls l v w) by (by rewrite Hl).
  by rewrite Hl.
Qed.

Lemma plot_given_window_never_creates_witness :
  exists l : t,
    __init__ "line" [["a"]; ["b"]] None (Some "loss_window") None ∅ (tt, sample_viz) =
      (Ok l, (tt, sample_viz)) /\
    log_each [([VNum 1; VNum 2], []); ([], []); ([VNum 3; VNum 4], [])]
      (l, sample_viz) =
      (l, after sample_viz
            [VizUpdateTrace [VNum 1] [VNum 2] (Some "loss_window") None ∅;
             VizUpdateTrace [VNum 3] [VNum 4] (Some "loss_window") None ∅]).
Proof.
  eexists. split; [reflexivity|].
  refine (proj1 (plot_given_window_never_creates "line" [["a"]; ["b"]] None
                   "loss_window" None ∅ sample_viz sample_viz _
                   [([VNum 1; VNum 2], []); ([], []); ([VNum 3; VNum 4], [])] _)).
  reflexivity.
Defined.





(** X13: [_log_all] of a plot logger that stores a window, when every
    configured path resolves: with exactly two fields it appends the two
    gathered values, first as x and second as y; with any other number of
    fields it raises the [ValueError] asking for x and y and issues no
    call. *)
Theorem plot_log_all_field_count (stats : value) (log_fields : string)
    (prefix suffix : option string) (require_dict : bool) (l : t) (v : Visdom)
    (w : string) (vs : list value) :
  BaseVisdomLogger.win (logger l) = Some w ->
  Forall2 (stored_at stats) (BaseVisdomLogger.fields (logger l)) vs ->
  (length (BaseVisdomLogger.fields (logger l)) ≠ 2 ->
     _log_all stats log_fields prefix suffix require_dict (l, v) =
       (Raise (ValueError MustPassXY), (l, v))) /\
  (forall x y : value,
     vs = [x; y] ->
     _log_all stats log_fields prefix suffix require_dict (l, v) =
       (Ok tt,
        (l, after v [VizUpdateTrace [x] [y] (Some w)
                       (BaseVisdomLogger.env (logger l))
                       (BaseVisdomLogger.opts (logger l))]))).
Proof.
  intros Hwin Hall.
  assert (Hrun : _log_all stats log_fields prefix suffix require_dict (l, v) =
                 log vs [] (l, v)).
  { unfold _log_all, BaseVisdomLogger_log_all, mbind, M_bind, get_self, lift.
    cbn [fst snd base object]. by rewrite (gather_stored _ _ _ Hall []). }
  rewrite Hrun, (log_with_window l v w vs [] Hwin). split.
  - intros Hlen. rewrite (Forall2_length _ _ _ Hall) in Hlen.
    destruct vs as [|x [|y [|z more]]]; try reflexivity. by destruct Hlen.
  - by intros x y ->.
Qed.

Lemma plot_log_all_field_count_witness :
  Forall2 (stored_at sample_stats)
    (BaseVisdomLogger.fields (logger (sample_plot (Some "window_0")))) [VNum 42] /\
  _log_all sample_stats "log_iter_fields" None None false
    (sample_plot (Some "window_0"), sample_viz) =
    (Raise (ValueError MustPassXY), (sample_plot (Some "window_0"), sample_viz)).
Proof.
  assert (Hall : Forall2 (stored_at sample_stats)
                   (BaseVisdomLogger.fields (logger (sample_plot (Some "window_0"))))
                   [VNum 42]).
  { repeat constructor. exact sample_stats_percent. }
  split; [exact Hall|].
  apply (plot_log_all_field_count sample_stats "log_iter_fields" None None false
           (sample_plot (Some "window_0")) sample_viz "window_0" [VNum 42]
           eq_refl Hall).
  cbn. lia.
Defined.

End PlotLoggerMore.

(** ** The text logger, further *)

Section TextLoggerMore.
Import VisdomTextLogger.

Lemma string_app_assoc (a b c : string) : ((a ++ b) ++ c = a ++ (b ++ c))%string.
Proof.
  induction a as [|ch a IH]; [reflexivity|].
  change (String ch ((a ++ b) ++ c) = String ch (a ++ (b ++ c)))%string.
  by rewrite IH.
Qed.

Lemma string_app_not_empty (a b : string) :
  a ≠ EmptyString -> (a ++ b)%string ≠ EmptyString.
Proof. destruct a as [|ch a]; [done | discriminate]. Qed.

Lemma concat_joined (sep t m : string) (rest : list string) :
  String.concat sep ((t ++ sep ++ m)%string :: rest) = String.concat sep (t :: m :: rest).
Proof.
  destruct rest as [|x rest]; [reflexivity|].
  change ((t ++ sep ++ m) ++ sep ++ String.concat sep (x :: rest) =
          t ++ sep ++ m ++ sep ++ String.concat sep (x :: rest))%string.
  by rewrite !string_app_assoc.
Qed.

Lemma last_cons_any_default (x : string) (xs : list string) (d d' : string) :
  List.last (x :: xs) d = List.last (x :: xs) d'.
Proof.
  revert x. induction xs as [|y xs IH]; intros x; [reflexivity|].
  change (List.last (y :: xs) d = List.last (y :: xs) d'). apply IH.
Qed.

(** A run of messages on a logger that does not append. *)
Lemma text_replace_run (msgs : list string) :
  forall (l : t) (v : Visdom),
    update_type l ≠ "APPEND" ->
    exists (l' : t) (cs : list call),
      text_log_each msgs (l, v) = (Ok tt, (l', after v cs)) /\
      update_type l' = update_type l /\
      text l' = List.last msgs (text l) /\
      omap sent_text cs = List.map (fun msg => [msg]) msgs.
Proof.
  induction msgs as [|msg msgs IH]; intros l v Hmode.
  - exists l, []. by rewrite after_nil.
  - cbn [text_log_each]. unfold mbind, M_bind. rewrite text_log_unfold. cbv zeta.
    apply String.eqb_neq in Hmode as Heqb. rewrite Heqb. cbn [andb].
    match goal with |- context [text_log_each msgs (?l1, ?v1)] =>
      destruct (IH l1 v1 Hmode) as (l' & cs & Hrun & Hmode' & Htext & Hsent)
    end.
    rewrite Hrun, after_after. eexists l', (_ :: cs).
    split; [reflexivity|]. split; [exact Hmode'|]. split.
    + rewrite Htext. cbn [text]. destruct msgs as [|msg' msgs]; [reflexivity|].
      change (List.last (msg :: msg' :: msgs) (text l))
        with (List.last (msg' :: msgs) (text l)).
      apply last_cons_any_default.
    + cbn. by rewrite Hsent.
Qed.

(** A run of messages on an appending logger that holds some text. *)
Lemma text_append_run (rest : list string) :
  forall (l : t) (v : Visdom),
    update_type l = "APPEND" ->
    text l ≠ EmptyString ->
    exists (l' : t) (cs : list call),
      text_log_each rest (l, v) = (Ok tt, (l', after v cs)) /\
      text l' = String.concat "<br>" (text l :: rest) /\
      omap sent_text cs =
        List.map (fun i => [String.concat "<br>" (text l :: take (S i) rest)])
          (seq 0 (length rest)).
Proof.
  induction rest as [|msg rest IH]; intros l v Hmode Htext.
  - exists l, []. by rewrite after_nil.
  - cbn [text_log_each]. unfold mbind, M_bind. rewrite text_log_unfold. cbv zeta.
    rewrite Hmode. apply String.eqb_neq in Htext as Heqb. rewrite Heqb.
    cbn [String.eqb Ascii.eqb Bool.eqb andb negb].
    match goal with |- context [text_log_each rest (?l1, ?v1)] =>
      destruct (IH l1 v1 eq_refl) as (l' & cs & Hrun & Htext' & Hsent)
    end.
    { cbn [text]. by apply string_app_not_empty. }
    rewrite Hrun, after_after. eexists l', (_ :: cs).
    split; [reflexivity|]. cbn [text] in Htext', Hsent. split.
    + by rewrite Htext', concat_joined.
    + cbn [omap list_omap sent_text length seq List.map]. rewrite Hsent.
      f_equal. rewrite <- List.seq_shift, List.map_map.
      apply List.map_ext. intros i. by rewrite concat_joined.
Qed.

(** X14: on a text logger that is not in APPEND mode, a run of [log] calls
    succeeds, sends the server each message alone, in order, one call per
    message, and leaves the text equal to the last message (the text is
    untouched by an empty run). *)
Theorem text_replace_keeps_last (l : t) (v : Visdom) (msgs : list string) :
  update_type l ≠ "APPEND" ->
  let r := text_log_each msgs (l, v) in
  fst r = Ok tt /\
  text (fst (snd r)) = List.last msgs (text l) /\
  exists cs : list call,
    snd (snd r) = after v cs /\
    omap sent_text cs = List.map (fun msg => [msg]) msgs.
Proof.
  intros Hmode r. subst r.
  destruct (text_replace_run msgs l v Hmode) as (l' & cs & -> & _ & Htext & Hsent).
  cbn. split; [reflexivity|]. split; [exact Htext|]. by exists cs.
Qed.

Lemma text_replace_keeps_last_witness :
  let l := {| logger := sample_base None; text := "old"; update_type := "REPLACE" |} in
  update_type l ≠ "APPEND" /\
  text (fst (snd (text_log_each ["a"; "b"; "c"] (l, sample_viz)))) = "c".
Proof.
  intros l.
  assert (Hmode : update_type l ≠ "APPEND") by discriminate.
  split; [exact Hmode|].
  destruct (text_replace_keeps_last l sample_viz ["a"; "b"; "c"] Hmode)
    as (_ & Htext & _).
  exact Htext.
Defined.

(** X15: on a text logger in APPEND mode whose text is empty, a run of
    [log] calls that starts with a non-empty message succeeds and leaves the
    text equal to the messages joined with ["<br>"]; the server receives one
    call per message, and the call for a message carries the whole text
    accumulated so far, that message included, not the message alone. *)
Theorem text_append_joins (l : t) (v : Visdom) (msg : string) (rest : list string) :
  update_type l = "APPEND" ->
  text l = EmptyString ->
  msg ≠ EmptyString ->
  let r := text_log_each (msg :: rest) (l, v) in
  fst r = Ok tt /\
  text (fst (snd r)) = String.concat "<br>" (msg :: rest) /\
  exists cs : list call,
    snd (snd r) = after v cs /\
    omap sent_text cs =
      List.map (fun i => [String.concat "<br>" (take (S i) (msg :: rest))])
        (seq 0 (S (length rest))).
Proof.
  intros Hmode Hempty Hmsg r. subst r.
  cbn [text_log_each]. unfold mbind, M_bind. rewrite text_log_unfold. cbv zeta.
  rewrite Hmode, Hempty. cbn [String.eqb Ascii.eqb Bool.eqb andb negb].
  match goal with |- context [text_log_each rest (?l1, ?v1)] =>
    destruct (text_append_run rest l1 v1 eq_refl Hmsg) as (l' & cs & Hrun & Htext & Hsent)
  end.
  rewrite Hrun, after_after. cbn [fst snd text] in *.
  split; [reflexivity|]. split; [exact Htext|].
  eexists (_ :: cs). split; [reflexivity|].
  cbn [omap list_omap sent_text seq List.map]. rewrite Hsent. f_equal.
  by rewrite <- List.seq_shift, List.map_map.
Qed.

Lemma text_append_joins_witness :
  let l := {| logger := sample_base None; text := EmptyString;
              update_type := "APPEND" |} in
  text (fst (snd (text_log_each ["a"; "b"; "c"] (l, sample_viz)))) = "a<br>b<br>c".
Proof.
  intros l.
  destruct (text_append_joins l sample_viz "a" ["b"; "c"] eq_refl eq_refl)
    as (_ & Htext & _); [discriminate|].
  exact Htext.
Defined.

(** X16: while the text of a logger in APPEND mode is empty, an empty
    message is sent and leaves it empty, so that the first non-empty message
    replaces the text instead of being joined after a ["<br>"]. *)
Theorem text_append_skips_empty (l : t) (v : Visdom) (n : nat) (msg : string) :
  update_type l = "APPEND" ->
  text l = EmptyString ->
  let r := text_log_each (replicate n EmptyString ++ [msg]) (l, v) in
  fst r = Ok tt /\
  text (fst (snd r)) = msg /\
  exists cs : list call, snd (snd r) = after v cs /\ length cs = S n.
Proof.
  intros Hmode Hempty r. subst r. revert l v Hmode Hempty.
  induction n as [|n IH]; intros l v Hmode Hempty;
    cbn [replicate app text_log_each]; unfold mbind, M_bind;
    rewrite text_log_unfold; cbv zeta; rewrite Hmode, Hempty;
    cbn [String.eqb Ascii.eqb Bool.eqb andb negb].
  - cbn. split; [reflexivity|]. split; [reflexivity|]. by eexists [_].
  - match goal with |- context [text_log_each _ (?l1, ?v1)] =>
      destruct (IH l1 v1 eq_refl eq_refl) as (Hok & Htext & cs & Hsent & Hlen)
    end.
    split; [exact Hok|]. split; [exact Htext|].
    eexists (_ :: cs). rewrite Hsent, after_after. split; [reflexivity|].
    cbn. by rewrite Hlen.
Qed.

Lemma text_append_skips_empty_witness :
  let l := {| logger := sample_base None; text := EmptyString;
              update_type := "APPEND" |} in
  text (fst (snd (text_log_each [EmptyString; EmptyString; "b"] (l, sample_viz)))) = "b".
Proof.
  intros l.
  destruct (text_append_skips_empty l sample_viz 2 "b" eq_refl eq_refl)
    as (_ & Htext & _).
  exact Htext.
Defined.

End TextLoggerMore.

(** ** The saver, further *)

Section SaverMore.
Import VisdomSaver.

Lemma saver_bind_all (interval : list (Z * string)) :
  forall self : t,
    foldl (fun self p => bind_save (snd p) self) self interval =
      {| trigger_interval := trigger_interval self; envs := envs self;
         hooks := (hooks self ++ List.map snd interval)%list |}.
Proof.
  induction interval as [|[k name] interval IH]; intros self; cbn.
  - destruct self; cbn. by rewrite app_nil_r.
  - rewrite IH. cbn. by rewrite <- app_assoc.
Qed.

(** X17: for an interval whose hook names are names of trainer events, the
    saver constructor binds [save] under every one of them, in order and
    whatever the repeat counts are, keeps the environments and the interval
    as given, and does not call the server; with an empty interval no hook
    is bound. *)
Theorem saver_init_binds_interval (envs : option (list string))
    (interval : list (Z * string)) (v : Visdom) :
  Forall (fun p => event_name (snd p) = true) interval ->
  __init__ envs interval (tt, v) =
    (Ok {| trigger_interval := interval; envs := envs;
           hooks := List.map snd interval |}, (tt, v)).
Proof.
  intros _. unfold __init__, mret, M_ret. by rewrite saver_bind_all.
Qed.

Lemma saver_init_binds_interval_witness :
  Forall (fun p => event_name (snd p) = true) [(1%Z, "epoch"); (100%Z, "iteration")] /\
  __init__ (Some ["main"]) [(1%Z, "epoch"); (100%Z, "iteration")] (tt, sample_viz) =
    (Ok {| trigger_interval := [(1%Z, "epoch"); (100%Z, "iteration")];
           envs := Some ["main"]; hooks := ["epoch"; "iteration"] |},
     (tt, sample_viz)).
Proof.
  assert (Hnames : Forall (fun p => event_name (snd p) = true)
                     [(1%Z, "epoch"); (100%Z, "iteration")])
    by (repeat constructor).
  split; [exact Hnames|].
  exact (saver_init_binds_interval (Some ["main"])
           [(1%Z, "epoch"); (100%Z, "iteration")] sample_viz Hnames).
Defined.

(** X18: firing a trainer event on a saver constructed with a list of
    environments and an interval of trainer events.  For an event of the
    interval the saver issues exactly one save call carrying the configured
    list, whatever the arguments of the event, and stays as it was; for any
    other trainer event [AttributeError] is raised and the server is not
    called. *)
Theorem saver_fire_bound (envs : list string) (interval : list (Z * string))
    (v0 v : Visdom) (s : t) (st : unit * Visdom) (name : string)
    (args : list value) :
  Forall (fun p => event_name (snd p) = true) interval ->
  event_name name = true ->
  __init__ (Some envs) interval (tt, v0) = (Ok s, st) ->
  (name ∈ List.map snd interval ->
     fire name args (s, v) = (Ok tt, (s, after v [VizSave [Some envs]]))) /\
  (name ∉ List.map snd interval ->
     fire name args (s, v) = (Raise (AttributeError name), (s, v))).
Proof.
  intros _ _. unfold __init__, mret, M_ret. rewrite saver_bind_all. intros [= <- _].
  unfold fire, save, mbind, M_bind, get_self, viz_call, raise, mret, M_ret. cbn.
  split; intros Hin.
  - by rewrite bool_decide_eq_true_2.
  - by rewrite bool_decide_eq_false_2.
Qed.

Lemma saver_fire_bound_witness :
  let interval := [(1%Z, "epoch"); (100%Z, "iteration")] in
  exists s : t,
    __init__ (Some ["main"; "test"]) interval (tt, sample_viz) = (Ok s, (tt, sample_viz)) /\
    fire "iteration" [VNum 7] (s, sample_viz) =
      (Ok tt, (s, after sample_viz [VizSave [Some ["main"; "test"]]])) /\
    fire "batch" [] (s, sample_viz) = (Raise (AttributeError "batch"), (s, sample_viz)).
Proof.
  intros interval.
  assert (Hnames : Forall (fun p => event_name (snd p) = true) interval)
    by (repeat constructor).
  eexists. split; [reflexivity|]. split.
  - refine (proj1 (saver_fire_bound ["main"; "test"] interval sample_viz
                     sample_viz _ _ "iteration" [VNum 7] Hnames eq_refl eq_refl) _).
    cbn. set_solver.
  - refine (proj2 (saver_fire_bound ["main"; "test"] interval sample_viz
                     sample_viz _ _ "batch" [] Hnames eq_refl eq_refl) _).
    cbn. rewrite !not_elem_of_cons. repeat split; try discriminate.
    apply not_elem_of_nil.
Defined.

End SaverMore.

(** ** Gathering on the text logger *)

Lemma bind_run {L A B : Type} (m : M L A) (f : A -> M L B) (s s' : L * Visdom)
    (a : A) :
  m s = (Ok a, s') -> (m ≫= f) s = f a s'.
Proof. intros Hm. unfold mbind, M_bind. by rewrite Hm. Qed.

Section TextLogAll.
Import VisdomTextLogger.

Variable gather_outputs :
  list string -> string -> option value -> value -> bool -> M t (string * list string).
Variable align_output : nat -> list string -> M t (list string).
Variable join_results : list (string * list string) -> M t string.



(** The three [log] calls that end [_log_all]. *)
Lemma text_log_around (prefix suffix : option string) (output : string)
    (s : t * Visdom) :
  (match prefix with Some p => log p [] [] | None => mret tt end;;
   log output [] [];;
   match suffix with Some s => log s [] [] | None => mret tt end) s =
  text_log_each (option_list prefix ++ output :: option_list suffix) s.
Proof.
  destruct s as [l v].
  destruct prefix as [p|], suffix as [x|];
    cbv [option_list option_rect]; cbn [app text_log_each];
    unfold mbind, M_bind, mret, M_ret;
    repeat (rewrite text_log_unfold; cbv zeta); reflexivity.
Qed.

(** X20: when the gathering gives some output, [_log_all] of the text
    logger logs the prefix, if any, the joined output, and the suffix, if
    any, as separate messages in this order.  On a logger that is not in
    APPEND mode each is sent alone and replaces the one before, so the text
    ends as the suffix when there is one, and as the output otherwise. *)
Theorem text_log_all_prefix_suffix (stats : value) (log_fields : string)
    (prefix suffix : option string) (require_dict : bool) (l l1 l2 : t)
    (v v1 v2 : Visdom) (results : list (string * list string)) (output : string) :
  collect gather_outputs align_output stats log_fields require_dict 0
    (BaseVisdomLogger.fields (logger l)) [] (l, v) = (Ok results, (l1, v1)) ->
  results ≠ [] ->
  join_results results (l1, v1) = (Ok output, (l2, v2)) ->
  update_type l2 ≠ "APPEND" ->
  let r := _log_all gather_outputs align_output join_results stats log_fields
             prefix suffix require_dict (l, v) in
  fst r = Ok tt /\
  text (fst (snd r)) = default output suffix /\
  exists cs : list call,
    snd (snd r) = after v2 cs /\
    omap sent_text cs =
      List.map (fun msg => [msg]) (option_list prefix ++ output :: option_list suffix).
Proof.
  intros Hcollect Hsome Hjoin Hmode r.
  assert (Hrun : r = text_log_each (option_list prefix ++ output :: option_list suffix)
                       (l2, v2)).
  { subst r. unfold _log_all.
    rewrite (bind_run get_self _ (l, v) (l, v) l eq_refl).
    cbn [base object]. rewrite (bind_run _ _ _ _ _ Hcollect).
    destruct results as [|res results]; [done|].
    rewrite (bind_run _ _ _ _ _ Hjoin). apply text_log_around. }
  rewrite Hrun.
  destruct (text_replace_run (option_list prefix ++ output :: option_list suffix)
              l2 v2 Hmode) as (l' & cs & -> & _ & Htext & Hsent).
  cbn [fst snd]. split; [reflexivity|].
  split; [|exists cs; split; [reflexivity | exact Hsent]].
  rewrite Htext. destruct prefix, suffix; reflexivity.
Qed.

End TextLogAll.


Lemma text_log_all_prefix_suffix_witness :
  let l := {| VisdomTextLogger.logger := sample_base None;
              VisdomTextLogger.text := EmptyString;
              VisdomTextLogger.update_type := "REPLACE" |} in
  let r := VisdomTextLogger._log_all (fun _ _ _ _ _ => mret ("progress", ["42%"]))
             (fun _ output => mret output) (fun _ => mret "progress: 42%")
             sample_stats "log_epoch_fields" (Some "Epoch summary") (Some "done") true
             (l, sample_viz) in
  fst r = Ok tt /\ VisdomTextLogger.text (fst (snd r)) = "done".
Proof.
  intros l r.
  assert (Hcollect :
            VisdomTextLogger.collect (fun _ _ _ _ _ => mret ("progress", ["42%"]))
              (fun _ output => mret output) sample_stats "log_epoch_fields" true 0
              (BaseVisdomLogger.fields (VisdomTextLogger.logger l)) []
              (l, sample_viz) = (Ok [("progress", ["42%"])], (l, sample_viz)))
    by reflexivity.
  destruct (text_log_all_prefix_suffix (fun _ _ _ _ _ => mret ("progress", ["42%"]))
              (fun _ output => mret output) (fun _ => mret "progress: 42%")
              sample_stats "log_epoch_fields" (Some "Epoch summary") (Some "done") true
              l l l sample_viz sample_viz sample_viz [("progress", ["42%"])]
              "progress: 42%" Hcollect)
    as (Hok & Htext & _); [discriminate | reflexivity | discriminate |].
  split; [exact Hok | exact Htext].
Defined.

